(** * Eurocode 2, chapter 6 shear resistances: [VRdmax] and [VRdc]

    Shallow embedding of [pystreng/codes/eurocodes/ec2/ch6/shear.py].
    Python floats are modelled by real numbers (exact arithmetic on finite
    values); a raised exception is the [Err] case of [Result]. *)

From Stdlib Require Import Reals Lra String List ZArith.
Import ListNotations.
Open Scope string_scope.
Open Scope R_scope.

(** ** Python runtime fragment *)

(** Exceptions the two functions can raise. *)
Inductive PyExc : Type :=
| ValueError
| ZeroDivisionError
| TypeError
| KeyError.

(** Outcome of a Python call: a returned value or a raised exception. *)
Inductive Result (A : Type) : Type :=
| Ok (a : A)
| Err (e : PyExc).
Arguments Ok {A} a.
Arguments Err {A} e.

Definition bind {A B : Type} (m : Result A) (k : A -> Result B) : Result B :=
  match m with
  | Ok a => k a
  | Err e => Err e
  end.

Notation "x <- m ;; k" := (bind m (fun x => k))
  (at level 61, m at next level, right associativity).

Definition fmap {A B : Type} (f : A -> B) (m : Result A) : Result B :=
  bind m (fun a => Ok (f a)).

(** [x / y] on floats: dividing by zero raises [ZeroDivisionError]. *)
Definition py_div (x y : R) : Result R :=
  if Req_dec_T y 0 then Err ZeroDivisionError else Ok (x / y).

(** [x < y] on floats. *)
Definition py_lt (x y : R) : bool :=
  if Rlt_dec x y then true else false.

(** ** [VRdmaxResult] (the frozen dataclass) *)

Module VRdmaxResult.
Record t : Type := mk {
  bw : R; d : R; fck : R; fyk : R; fywk : R; θ : R; αcw : R; γc : R;
  units : string;
  value : R; z : R; fcd : R; v1 : R; tanθ : R; cotθ : R
}.
End VRdmaxResult.

(** [float | VRdmaxResult]: the return type selected by [include_intermediates]. *)
Inductive VRdmaxRet : Type :=
| Scalar (v : R)
| Detailed (r : VRdmaxResult.t).

(** ** [VRdmax] *)

Definition VRdmax (bw d fck fyk fywk θ : R) (αcw γc : R) (units : string)
    (include_intermediates : bool) : Result VRdmaxRet :=
  if negb (String.eqb units "N-mm-rad" || String.eqb units "kN-m-rad")%bool
  then Err ValueError
  else
    (* Normalize units *)
    let sL := if String.eqb units "kN-m-rad" then 1000 else 1 in
    let sF := if String.eqb units "kN-m-rad" then 0.001 else 1 in
    let bw_ := bw * sL in
    let d_ := d * sL in
    let fck_ := fck * sF in
    let fyk_ := fyk * sF in
    let fywk_ := fywk * sF in
    (* Core calculations *)
    let z := 0.9 * d_ in
    fcd <- py_div fck_ γc ;;
    v1 <- (if py_lt fywk_ (0.8 * fyk_) then Ok 0.6
           else q <- py_div fck_ 250 ;; Ok (0.6 * (1 - q))) ;;
    let tanθ := tan θ in
    cotθ <- py_div 1 (tan θ) ;;
    value <- py_div (αcw * bw_ * z * v1 * fcd) (tanθ + cotθ) ;;
    let value := if String.eqb units "kN-m-rad" then value * 0.001 else value in
    let res := VRdmaxResult.mk bw d fck fyk fywk θ αcw γc units
                 value z fcd v1 tanθ cotθ in
    Ok (if include_intermediates then Detailed res
        else Scalar (VRdmaxResult.value res)).

(** Multiplies a scalar return value by [c] (a detailed result is left
    as it is). *)
Definition times_scalar (c : R) (r : VRdmaxRet) : VRdmaxRet :=
  match r with
  | Scalar v => Scalar (c * v)
  | Detailed res => Detailed res
  end.

(** Defaults of the keyword arguments. *)
Definition αcw_default : R := 1.0.
Definition γc_default : R := 1.5.
Definition units_default : string := "N-mm-rad".

(** ** [VRdc] *)

(** Numbers [VRdc] can produce: a float, or the complex number that
    [x ** 0.5] returns for a negative float [x].  The complex value itself
    is never observed: it only flows into [min] or [max], whose comparison
    with it raises [TypeError]. *)
Inductive pynum : Type :=
| PFloat (x : R)
| PComplex.

Definition num_add (a b : pynum) : pynum :=
  match a, b with
  | PFloat x, PFloat y => PFloat (x + y)
  | _, _ => PComplex
  end.

Definition num_mul (a b : pynum) : pynum :=
  match a, b with
  | PFloat x, PFloat y => PFloat (x * y)
  | _, _ => PComplex
  end.

(** Real power [x ^ y] for [x >= 0] and [y > 0], with [0 ^ y = 0]. *)
Definition rpow (x y : R) : R :=
  if Req_dec_T x 0 then 0 else Rpower x y.

(** [a ** y] for a non-integral float exponent [y > 0]. *)
Definition py_pow (a : pynum) (y : R) : pynum :=
  match a with
  | PFloat x => if Rlt_dec x 0 then PComplex else PFloat (rpow x y)
  | PComplex => PComplex
  end.

(** [math.pow(a, y)] for a non-integral exponent [y > 0]: a negative base
    is a domain error. *)
Definition math_pow (a : pynum) (y : R) : Result R :=
  match a with
  | PFloat x => if Rlt_dec x 0 then Err ValueError else Ok (rpow x y)
  | PComplex => Err TypeError
  end.

(** [min(a, b)]: keeps [a] unless [b < a]. *)
Definition py_min (a b : pynum) : Result pynum :=
  match a, b with
  | PFloat x, PFloat y => Ok (if Rlt_dec y x then b else a)
  | _, _ => Err TypeError
  end.

(** [max(a, b)]: keeps [a] unless [b > a]. *)
Definition py_max (a b : pynum) : Result pynum :=
  match a, b with
  | PFloat x, PFloat y => Ok (if Rlt_dec x y then b else a)
  | _, _ => Err TypeError
  end.

(** A [Dict[str, float]] as an insertion-ordered association list. *)
Definition dict : Type := list (string * pynum).

(** [m[key] = v]: overwrite in place, or append a new key at the end. *)
Fixpoint dict_setitem (m : dict) (key : string) (v : pynum) : dict :=
  match m with
  | [] => [(key, v)]
  | (k, w) :: m' =>
      if String.eqb k key then (k, v) :: m' else (k, w) :: dict_setitem m' key v
  end.

(** [m[key]]. *)
Fixpoint dict_getitem (m : dict) (key : string) : Result pynum :=
  match m with
  | [] => Err KeyError
  | (k, w) :: m' => if String.eqb k key then Ok w else dict_getitem m' key
  end.

Definition VRdc (CRdc Asl fck σcp bw d : R) (units : string) : Result dict :=
  let _VRdc : dict := [] in
  let '(Asl, fck, σcp, bw, d) :=
    if String.eqb units "N-mm" then (Asl, fck, σcp, bw, d)
    else if String.eqb units "kN-m" then
      (Asl * 1000000, fck * 0.001, σcp * 0.001, bw * 1000, d * 1000)
    else (Asl, fck, σcp, bw, d) in
  q <- py_div Asl (bw * d) ;;
  ρl <- py_min (PFloat q) (PFloat 0.02) ;;
  t <- py_div 200.0 d ;;
  k <- py_min (num_add (PFloat 1) (py_pow (PFloat t) 0.5)) (PFloat 2.0) ;;
  let vmin := num_mul (num_mul (PFloat 0.035) (py_pow k 1.5))
                      (py_pow (PFloat fck) 0.5) in
  let k1 := PFloat 0.15 in
  c <- math_pow (num_mul (num_mul (PFloat 100) ρl) (PFloat fck)) (1 / 3) ;;
  let VRdc1 := num_mul (num_mul (num_add (num_mul (num_mul (PFloat CRdc) k) (PFloat c))
                                         (num_mul k1 (PFloat σcp)))
                                (PFloat bw)) (PFloat d) in
  let VRdc2 := num_mul (num_mul (num_add vmin (num_mul k1 (PFloat σcp)))
                                (PFloat bw)) (PFloat d) in
  let _VRdc := dict_setitem _VRdc "ρl" ρl in
  let _VRdc := dict_setitem _VRdc "k" k in
  let _VRdc := dict_setitem _VRdc "vmin" vmin in
  let _VRdc := dict_setitem _VRdc "k1" k1 in
  let _VRdc := dict_setitem _VRdc "VRdc1" VRdc1 in
  let _VRdc := dict_setitem _VRdc "VRdc2" VRdc2 in
  v <- py_max VRdc1 VRdc2 ;;
  let _VRdc := dict_setitem _VRdc "value" v in
  _VRdc <- (if String.eqb units "N-mm" then Ok _VRdc
            else if String.eqb units "kN-m" then
              x <- dict_getitem _VRdc "value" ;;
              Ok (dict_setitem _VRdc "value" (num_mul x (PFloat 0.001)))
            else Ok _VRdc) ;;
  Ok _VRdc.

(** Rescales the "value" entry of a result mapping (other entries kept). *)
Definition map_value (f : pynum -> pynum) (m : dict) : dict :=
  map (fun kv => if String.eqb (fst kv) "value" then (fst kv, f (snd kv)) else kv) m.

(** [res.value] for a detailed result, the float itself otherwise. *)
Definition scalar_of (r : VRdmaxRet) : VRdmaxRet :=
  match r with
  | Scalar v => Scalar v
  | Detailed res => Scalar (VRdmaxResult.value res)
  end.

(** ** [VRdmaxResult.to_latex] *)

(** The newline that [str.join] puts between blocks. *)
Definition newline : string := String (Ascii.ascii_of_nat 10) EmptyString.

Section ToLatex.

(** [f"{x:.{decimals}f}"]: Python's fixed-point formatting of a float with
    [decimals] digits, left abstract. *)
Variable format_fixed : Z -> R -> string.

Definition to_latex (self : VRdmaxResult.t) (show_inputs with_steps : bool)
    (decimals : Z) : string :=
  let q := format_fixed decimals in
  let V_unit := if String.eqb (VRdmaxResult.units self) "N-mm-rad" then "N" else "kN" in
  let L_unit := if String.eqb (VRdmaxResult.units self) "N-mm-rad" then "mm" else "m" in
  let f_unit := "N/mm^2" in
  let inputs :=
    if show_inputs then
      "$$" ++ "\begin{array}{l l}"
      ++ "b_w = " ++ q (VRdmaxResult.bw self) ++ "~\mathrm{" ++ L_unit ++ "} & d = "
      ++ q (VRdmaxResult.d self) ++ "~\mathrm{" ++ L_unit ++ "} \\ "
      ++ "f_{ck} = " ++ q (VRdmaxResult.fck self) ++ "~\mathrm{" ++ f_unit ++ "} & f_{yk} = "
      ++ q (VRdmaxResult.fyk self) ++ "~\mathrm{" ++ f_unit ++ "} \\ "
      ++ "f_{ywk} = " ++ q (VRdmaxResult.fywk self) ++ "~\mathrm{" ++ f_unit ++ "} & \theta = "
      ++ q (VRdmaxResult.θ self) ++ "~\mathrm{rad} \\ "
      ++ "\alpha_{cw} = " ++ q (VRdmaxResult.αcw self) ++ " & \gamma_c = "
      ++ q (VRdmaxResult.γc self)
      ++ "\end{array}$$"
    else "" in
  let inter :=
    if with_steps then
      "$$" ++ "\begin{array}{l l}"
      ++ "z = " ++ q (VRdmaxResult.z self) ++ "~\mathrm{" ++ L_unit ++ "} & "
      ++ "f_{cd} = " ++ q (VRdmaxResult.fcd self) ++ "~\mathrm{" ++ f_unit ++ "} \\ "
      ++ "\nu_1 = " ++ q (VRdmaxResult.v1 self) ++ " & "
      ++ "\tan\theta = " ++ q (VRdmaxResult.tanθ self) ++ ",~\cot\theta = "
      ++ q (VRdmaxResult.cotθ self)
      ++ "\end{array}$$"
    else "" in
  let expr :=
    "\begin{align}"
    ++ "V_{Rd,\max} &= \frac{\alpha_{cw} \cdot b_w \cdot z \cdot \nu_1 \cdot f_{cd}}{\cot\theta + \tan\theta}\\[3pt]"
    ++ "&= " ++ q (VRdmaxResult.value self) ++ "~\text{" ++ V_unit ++ "}"
    ++ "\end{align}" in
  String.concat newline
    (List.filter (fun x => negb (String.eqb x "")) [inputs; inter; expr]).

End ToLatex.

(** ** Proof automation for the float model *)

(** Evaluate a Python computation: reduce the error monad and split on
    every float comparison the code makes, as it comes up. *)
Ltac py_eval :=
  repeat first
    [ progress (unfold py_div, py_lt in *; cbn [bind fmap] in * )
    | match goal with
      | |- context [Req_dec_T ?a ?b] => destruct (Req_dec_T a b)
      | |- context [Rlt_dec ?a ?b] => destruct (Rlt_dec a b)
      end ].

(** The same, also through the number and dictionary operations of [VRdc]. *)
Ltac py_eval_num :=
  repeat first
    [ progress (unfold py_div, py_lt, py_min, py_max, py_pow, math_pow,
                  num_add, num_mul, map_value, fmap in *; cbn in * )
    | match goal with
      | |- context [Req_dec_T ?a ?b] => destruct (Req_dec_T a b)
      | |- context [Rlt_dec ?a ?b] => destruct (Rlt_dec a b)
      end ].

(** Positivity of a product whose factors are positive by [lra]. *)
Ltac pos_product :=
  repeat match goal with
  | |- 0 < ?a * ?b => apply Rmult_lt_0_compat
  end; lra.

(** ** Shared lemmas *)

(** The docstring example [VRdmax(250., 539., 20., 500., 500., math.pi/4)]
    evaluated exactly: [v1 = 0.6 (1 - 20/250) = 0.552], [fcd = 40/3],
    [tan θ = cot θ = 1]. *)
Lemma VRdmax_docstring_example :
  VRdmax 250 539 20 500 500 (PI / 4) αcw_default γc_default units_default false
  = Ok (Scalar 446292).
Proof.
  unfold VRdmax, αcw_default, γc_default, units_default; cbn.
  rewrite tan_PI4.
  py_eval; try lra.
  do 2 f_equal. lra.
Qed.

(** ** C1 *)

(** C1 (as stated): with the default optional arguments,
    [VRdmax(bw=250, d=539, fck=20, fyk=500, fywk=500, θ=π/4)] returns
    150000.0.  It does not: the code returns 446292. *)
Lemma C1_counterexample :
  VRdmax 250 539 20 500 500 (PI / 4) αcw_default γc_default units_default false
  <> Ok (Scalar 150000).
Proof.
  rewrite VRdmax_docstring_example. intro H. injection H. lra.
Qed.

(** C1 (amended): with the default optional arguments,
    [VRdmax(bw=250, d=539, fck=20, fyk=500, fywk=500, θ=π/4)] returns
    the scalar 446292 (N) in exact arithmetic. *)
Theorem C1_VRdmax_worked_example :
  VRdmax 250 539 20 500 500 (PI / 4) αcw_default γc_default units_default false
  = Ok (Scalar 446292).
Proof. exact VRdmax_docstring_example. Qed.

(** ** Further shared lemmas on [VRdmax] *)

(** [tan θ + cot θ] never vanishes once [tan θ] does not. *)
Lemma tan_plus_cot_nonzero (t : R) : t <> 0 -> t + 1 / t <> 0.
Proof.
  intros Ht E.
  assert (Hsq : t * (t + 1 / t) = t * t + 1) by (field; exact Ht).
  rewrite E, Rmult_0_r in Hsq. nra.
Qed.

(** The only exception raised past the units check is [ZeroDivisionError]. *)
Lemma VRdmax_valid_units_no_ValueError bw d fck fyk fywk θ αcw γc units ii :
  (units = "N-mm-rad" \/ units = "kN-m-rad") ->
  VRdmax bw d fck fyk fywk θ αcw γc units ii <> Err ValueError.
Proof.
  intros [-> | ->]; unfold VRdmax; cbn; py_eval; intro H; discriminate H.
Qed.

(** With [math.tan(θ) == 0.0] the expression [1 / math.tan(θ)] raises. *)
Lemma VRdmax_tan_zero_raises bw d fck fyk fywk θ αcw γc units ii :
  (units = "N-mm-rad" \/ units = "kN-m-rad") -> tan θ = 0 ->
  VRdmax bw d fck fyk fywk θ αcw γc units ii = Err ZeroDivisionError.
Proof.
  intros Hu Ht. destruct Hu as [-> | ->]; unfold VRdmax; cbn; rewrite Ht;
    py_eval; solve [reflexivity | lra].
Qed.

(** Scaling to kN and back is exact on reals. *)
Lemma kN_to_N_exact (x : R) : x = 1000 * (x * 0.001).
Proof. lra. Qed.

(** A positive factor times a strictly larger operand over a positive
    divisor stays strictly larger. *)
Lemma scaled_quotient_lt (K A A' S : R) :
  0 < K -> 0 < S -> A < A' -> K * A / S < K * A' / S.
Proof.
  intros HK HS HA. unfold Rdiv.
  apply Rmult_lt_compat_r; [apply Rinv_0_lt_compat; exact HS|].
  apply Rmult_lt_compat_l; assumption.
Qed.

(** For an acute strut angle [tan θ + cot θ] is positive. *)
Lemma tan_plus_cot_pos (θ : R) : 0 < θ < PI / 2 -> 0 < tan θ + 1 / tan θ.
Proof.
  intros [H0 H1]. pose proof (tan_gt_0 θ H0 H1) as Ht.
  pose proof (Rdiv_lt_0_compat 1 (tan θ) Rlt_0_1 Ht). lra.
Qed.

(** [x ** 0.5] is the square root on non-negative floats. *)
Lemma rpow_half (x : R) : 0 <= x -> rpow x 0.5 = sqrt x.
Proof.
  intro Hx. unfold rpow. destruct (Req_dec_T x 0) as [-> | Hx0].
  - symmetry. exact sqrt_0.
  - rewrite <- Rpower_sqrt by lra. f_equal. lra.
Qed.

(** ** C7 *)

(** C7: [VRdmax] raises [ValueError] exactly when [units] is neither
    "N-mm-rad" nor "kN-m-rad"; then it raises it whatever the numeric
    inputs, i.e. before any computation (which could otherwise raise
    [ZeroDivisionError]). *)
Theorem C7_VRdmax_ValueError_iff_bad_units bw d fck fyk fywk θ αcw γc units ii :
  VRdmax bw d fck fyk fywk θ αcw γc units ii = Err ValueError
  <-> (units <> "N-mm-rad" /\ units <> "kN-m-rad").
Proof.
  split.
  - intro H. split; intros ->;
      refine (VRdmax_valid_units_no_ValueError _ _ _ _ _ _ _ _ _ _ _ H); auto.
  - intros [H1 H2]. unfold VRdmax.
    destruct (String.eqb_spec units "N-mm-rad"); [contradiction|].
    destruct (String.eqb_spec units "kN-m-rad"); [contradiction|].
    reflexivity.
Qed.

(** ** C2 *)

(** C2 (as stated): degenerate inputs such as [θ = 0] do not raise.  They
    do: [math.tan(0.0)] is [0.0] and Python's float division by zero raises
    [ZeroDivisionError] instead of returning an infinity. *)
Lemma C2_counterexample :
  VRdmax 250 539 20 500 500 0 αcw_default γc_default units_default false
  = Err ZeroDivisionError.
Proof.
  apply VRdmax_tan_zero_raises; [left; reflexivity | exact tan_0].
Qed.

(** C2 (amended): [VRdmax] guards no degenerate geometry.  For a recognised
    units tag, whenever [tan θ] is [0] (e.g. [θ = 0]) the call raises
    [ZeroDivisionError]; with [d = 0] (and [γc], [tan θ] non-zero) it
    completes without error and returns the value [0]. *)
Theorem C2_VRdmax_degenerate_inputs bw d fck fyk fywk θ αcw γc units :
  (units = "N-mm-rad" \/ units = "kN-m-rad") ->
  (tan θ = 0 ->
     forall ii, VRdmax bw d fck fyk fywk θ αcw γc units ii = Err ZeroDivisionError)
  /\ (γc <> 0 -> tan θ <> 0 ->
     VRdmax bw 0 fck fyk fywk θ αcw γc units false = Ok (Scalar 0)).
Proof.
  intros Hu. split.
  - intros Ht ii. exact (VRdmax_tan_zero_raises _ _ _ _ _ _ _ _ _ ii Hu Ht).
  - intros Hg Ht.
    pose proof (tan_plus_cot_nonzero _ Ht) as Hs.
    destruct Hu as [-> | ->]; unfold VRdmax; cbn; py_eval;
      solve [ contradiction | exfalso; lra | do 2 f_equal; unfold Rdiv; ring ].
Qed.

Lemma C2_VRdmax_degenerate_inputs_witness :
  ("kN-m-rad" = "N-mm-rad" \/ "kN-m-rad" = "kN-m-rad")
  /\ VRdmax 0.25 0 20000 500000 500000 0 1 1.5 "kN-m-rad" true = Err ZeroDivisionError
  /\ VRdmax 0.25 0 20000 500000 500000 (PI / 4) 1 1.5 "kN-m-rad" false = Ok (Scalar 0).
Proof.
  split; [right; reflexivity|]. split.
  - apply (proj1 (C2_VRdmax_degenerate_inputs 0.25 0 20000 500000 500000 0 1 1.5
             "kN-m-rad" (or_intror eq_refl))); exact tan_0.
  - apply (proj2 (C2_VRdmax_degenerate_inputs 0.25 0 20000 500000 500000 (PI / 4) 1 1.5
             "kN-m-rad" (or_intror eq_refl))); [lra | rewrite tan_PI4; lra].
Defined.

(** ** C4 *)

(** C4: with [units = "N-mm-rad"] the call returns exactly when the two
    divisors [γc] and [tan θ] are non-zero, and then returns
    [αcw·bw·(0.9·d)·v1·(fck/γc)/(tan θ + cot θ)] with [v1 = 0.6] if
    [fywk < 0.8·fyk] and [v1 = 0.6·(1 − fck/250)] otherwise: no further
    split on [fck]. *)
Theorem C4_VRdmax_N_mm_formula bw d fck fyk fywk θ αcw γc r :
  VRdmax bw d fck fyk fywk θ αcw γc "N-mm-rad" false = Ok r
  <-> (γc <> 0 /\ tan θ <> 0 /\
       r = Scalar (αcw * bw * (0.9 * d)
                   * (if Rlt_dec fywk (0.8 * fyk) then 0.6 else 0.6 * (1 - fck / 250))
                   * (fck / γc) / (tan θ + 1 / tan θ))).
Proof.
  unfold VRdmax; cbn. rewrite !Rmult_1_r.
  py_eval; split;
    solve
      [ intro H; discriminate H
      | intro H; injection H as <-; repeat split; assumption
      | intros (H1 & H2 & ->); reflexivity
      | intros (H1 & H2 & _); contradiction
      | intros (H1 & H2 & _); exfalso; lra
      | intros (H1 & H2 & _); exfalso; exact (tan_plus_cot_nonzero _ H2 ltac:(assumption)) ].
Qed.

(** ** C6 *)

(** C6: unit round trip.  [VRdmax] in N-mm-rad equals 1000 times [VRdmax]
    in kN-m-rad on the inputs [bw/1000], [d/1000], [fck·1000], [fyk·1000],
    [fywk·1000] (exact on reals); the two calls also raise the same
    exception when one of them raises. *)
Theorem C6_VRdmax_unit_roundtrip bw d fck fyk fywk θ αcw γc :
  VRdmax bw d fck fyk fywk θ αcw γc "N-mm-rad" false
  = fmap (times_scalar 1000)
      (VRdmax (bw / 1000) (d / 1000) (fck * 1000) (fyk * 1000) (fywk * 1000)
              θ αcw γc "kN-m-rad" false).
Proof.
  unfold VRdmax; cbn. rewrite !Rmult_1_r.
  replace (bw / 1000 * 1000) with bw by lra.
  replace (d / 1000 * 1000) with d by lra.
  replace (fck * 1000 * 0.001) with fck by lra.
  replace (fyk * 1000 * 0.001) with fyk by lra.
  replace (fywk * 1000 * 0.001) with fywk by lra.
  py_eval; cbn [times_scalar];
    solve [ reflexivity | do 2 f_equal; apply kN_to_N_exact ].
Qed.

(** ** C9 *)

(** C9: in the low-ductility branch ([fywk < 0.8·fyk], so [v1 = 0.6]) with
    positive [bw], [d], [αcw], [γc] and [0 < θ < π/2], raising [fck]
    strictly raises both [fcd] and the returned [value], in either unit
    system. *)
Theorem C9_VRdmax_monotone_in_fck bw d fck fck' fyk fywk θ αcw γc units :
  0 < bw -> 0 < d -> 0 < αcw -> 0 < γc -> 0 < θ < PI / 2 ->
  fywk < 0.8 * fyk ->
  (units = "N-mm-rad" \/ units = "kN-m-rad") ->
  fck < fck' ->
  exists r r',
    VRdmax bw d fck fyk fywk θ αcw γc units true = Ok (Detailed r)
    /\ VRdmax bw d fck' fyk fywk θ αcw γc units true = Ok (Detailed r')
    /\ VRdmaxResult.fcd r < VRdmaxResult.fcd r'
    /\ VRdmaxResult.value r < VRdmaxResult.value r'.
Proof.
  intros Hbw Hd Ha Hg Hθ Hy Hu Hf.
  pose proof (tan_plus_cot_pos θ Hθ) as HS.
  pose proof (tan_gt_0 θ (proj1 Hθ) (proj2 Hθ)) as Ht.
  assert (Hfcd : forall s, 0 < s -> fck * s / γc < fck' * s / γc).
  { intros s Hs. unfold Rdiv. apply Rmult_lt_compat_r;
      [apply Rinv_0_lt_compat; exact Hg | nra]. }
  destruct Hu as [-> | ->]; unfold VRdmax; cbn; py_eval;
    try (exfalso; lra);
    (do 2 eexists; split; [reflexivity | split; [reflexivity | cbn]]).
  - split; [apply Hfcd; lra|].
    apply scaled_quotient_lt; [|exact HS|apply Hfcd; lra].
    pos_product.
  - split; [apply Hfcd; lra|].
    apply Rmult_lt_compat_r; [lra|].
    apply scaled_quotient_lt; [|exact HS|apply Hfcd; lra].
    pos_product.
Qed.

Lemma C9_VRdmax_monotone_in_fck_witness :
  exists r r',
    VRdmax 250 539 20 500 300 (PI / 4) 1 1.5 "N-mm-rad" true = Ok (Detailed r)
    /\ VRdmax 250 539 30 500 300 (PI / 4) 1 1.5 "N-mm-rad" true = Ok (Detailed r')
    /\ VRdmaxResult.fcd r < VRdmaxResult.fcd r'
    /\ VRdmaxResult.value r < VRdmaxResult.value r'.
Proof.
  pose proof PI_RGT_0.
  apply (C9_VRdmax_monotone_in_fck 250 539 20 30 500 300 (PI / 4) 1 1.5 "N-mm-rad");
    solve [ lra | split; lra | left; reflexivity ].
Defined.

(** ** C10 *)

(** C10: the detailed result echoes the inputs exactly as passed, while
    [z] and [fcd] are computed in the internal mm/N space: for
    "kN-m-rad", [z = 0.9·(1000·d)] and [fcd = (0.001·fck)/γc], and only
    [value] is converted back (times 0.001); for "N-mm-rad",
    [z = 0.9·d] and [fcd = fck/γc]. *)
Theorem C10_VRdmax_intermediates_internal_units bw d fck fyk fywk θ αcw γc units r :
  (units = "N-mm-rad" \/ units = "kN-m-rad") ->
  VRdmax bw d fck fyk fywk θ αcw γc units true = Ok (Detailed r) ->
  VRdmaxResult.bw r = bw /\ VRdmaxResult.d r = d /\ VRdmaxResult.fck r = fck
  /\ VRdmaxResult.fyk r = fyk /\ VRdmaxResult.fywk r = fywk
  /\ VRdmaxResult.θ r = θ /\ VRdmaxResult.αcw r = αcw /\ VRdmaxResult.γc r = γc
  /\ VRdmaxResult.units r = units
  /\ (units = "kN-m-rad" ->
        VRdmaxResult.z r = 0.9 * (1000 * d)
        /\ VRdmaxResult.fcd r = 0.001 * fck / γc
        /\ VRdmaxResult.value r
           = αcw * (1000 * bw) * VRdmaxResult.z r * VRdmaxResult.v1 r
             * VRdmaxResult.fcd r
             / (VRdmaxResult.tanθ r + VRdmaxResult.cotθ r) * 0.001)
  /\ (units = "N-mm-rad" ->
        VRdmaxResult.z r = 0.9 * d
        /\ VRdmaxResult.fcd r = fck / γc
        /\ VRdmaxResult.value r
           = αcw * bw * VRdmaxResult.z r * VRdmaxResult.v1 r * VRdmaxResult.fcd r
             / (VRdmaxResult.tanθ r + VRdmaxResult.cotθ r)).
Proof.
  intros [-> | ->]; unfold VRdmax; cbn; py_eval; intro H;
    try discriminate H; injection H as <-; cbn;
    repeat match goal with |- _ /\ _ => split end;
    try reflexivity; intro E; try discriminate E;
    repeat match goal with |- _ /\ _ => split end; unfold Rdiv; ring.
Qed.

Lemma C10_VRdmax_intermediates_internal_units_witness :
  let r := VRdmaxResult.mk 0.25 0.539 20000 500000 500000 (PI / 4) 1 1.5 "kN-m-rad"
             446.292 485.1 (40 / 3) 0.552 1 1 in
  ("kN-m-rad" = "N-mm-rad" \/ "kN-m-rad" = "kN-m-rad")
  /\ VRdmax 0.25 0.539 20000 500000 500000 (PI / 4) 1 1.5 "kN-m-rad" true
     = Ok (Detailed r)
  /\ VRdmaxResult.z r = 0.9 * (1000 * 0.539)
  /\ VRdmaxResult.fcd r = 0.001 * 20000 / 1.5.
Proof.
  intro r.
  assert (Hu : "kN-m-rad" = "N-mm-rad" \/ "kN-m-rad" = "kN-m-rad") by (right; reflexivity).
  assert (Hr : VRdmax 0.25 0.539 20000 500000 500000 (PI / 4) 1 1.5 "kN-m-rad" true
               = Ok (Detailed r)).
  { unfold VRdmax, r; cbn. rewrite tan_PI4. py_eval; try (exfalso; lra).
    do 2 f_equal. f_equal; lra. }
  pose proof (C10_VRdmax_intermediates_internal_units _ _ _ _ _ _ _ _ _ _ Hu Hr)
    as (_ & _ & _ & _ & _ & _ & _ & _ & _ & HkN & _).
  destruct (HkN eq_refl) as (Hz & Hf & _).
  repeat split; assumption.
Defined.

(** ** C3 *)

(** C3 (as stated): for an unrecognised units tag, [VRdc] raises no error
    whatever the numeric inputs.  With [d = 0] it raises
    [ZeroDivisionError] in [Asl / (bw * d)], for every tag. *)
Lemma C3_counterexample :
  VRdc 0.12 308 20 0.66667 250 0 "bad-unit" = Err ZeroDivisionError.
Proof.
  unfold VRdc; cbn. py_eval; solve [reflexivity | exfalso; lra].
Qed.

(** C3 (amended): [VRdc] never validates [units]: for every tag other than
    "N-mm" and "kN-m" and all numeric inputs, it behaves exactly as with
    "N-mm": the same mapping, or the same exception where that call
    raises. *)
Theorem C3_VRdc_unknown_units_as_N_mm CRdc Asl fck σcp bw d units :
  units <> "N-mm" -> units <> "kN-m" ->
  VRdc CRdc Asl fck σcp bw d units = VRdc CRdc Asl fck σcp bw d "N-mm".
Proof.
  intros H1 H2. unfold VRdc.
  destruct (String.eqb_spec units "N-mm"); [contradiction|].
  destruct (String.eqb_spec units "kN-m"); [contradiction|].
  cbn. reflexivity.
Qed.

Lemma C3_VRdc_unknown_units_as_N_mm_witness :
  "bad-unit" <> "N-mm" /\ "bad-unit" <> "kN-m"
  /\ VRdc 0.12 308 20 0.66667 250 539 "bad-unit"
     = VRdc 0.12 308 20 0.66667 250 539 "N-mm".
Proof.
  assert (H1 : "bad-unit" <> "N-mm") by discriminate.
  assert (H2 : "bad-unit" <> "kN-m") by discriminate.
  split; [exact H1 | split; [exact H2 |]].
  exact (C3_VRdc_unknown_units_as_N_mm 0.12 308 20 0.66667 250 539 "bad-unit" H1 H2).
Defined.

(** ** C8 *)

(** C8: with [units = "kN-m"], [VRdc] is the "N-mm" computation on the
    inputs converted by [Asl·10^6], [fck·0.001], [σcp·0.001], [bw·1000],
    [d·1000], after which only the "value" entry is multiplied by 0.001;
    [ρl], [k], [vmin], [k1], [VRdc1], [VRdc2] stay as computed in the mm/N
    space.  Exceptions are the same on both sides. *)
Theorem C8_VRdc_kN_m_conversion CRdc Asl fck σcp bw d :
  VRdc CRdc Asl fck σcp bw d "kN-m"
  = fmap (map_value (fun v => num_mul v (PFloat 0.001)))
      (VRdc CRdc (Asl * 1000000) (fck * 0.001) (σcp * 0.001) (bw * 1000) (d * 1000)
            "N-mm").
Proof.
  unfold VRdc; cbn. py_eval_num; reflexivity.
Qed.

(** ** C5 *)

(** C5: whenever [VRdc] with "N-mm" returns, it returns the mapping with
    exactly the keys ρl, k, vmin, k1, VRdc1, VRdc2, value (in this order),
    where [ρl = min(Asl/(bw·d), 0.02)], [k = min(1 + sqrt(200/d), 2.0)],
    [vmin = 0.035·k^1.5·sqrt fck], [k1 = 0.15],
    [VRdc1 = (CRdc·k·(100·ρl·fck)^(1/3) + k1·σcp)·bw·d],
    [VRdc2 = (vmin + k1·σcp)·bw·d] and [value = max(VRdc1, VRdc2)]; so
    [ρl] is exactly 0.02 when [Asl/(bw·d) > 0.02] and [k] is exactly 2.0
    when [1 + sqrt(200/d) > 2.0]. *)
Theorem C5_VRdc_N_mm_mapping CRdc Asl fck σcp bw d m :
  VRdc CRdc Asl fck σcp bw d "N-mm" = Ok m ->
  let ρl := Rmin (Asl / (bw * d)) 0.02 in
  let k := Rmin (1 + sqrt (200.0 / d)) 2.0 in
  let vmin := 0.035 * rpow k 1.5 * sqrt fck in
  let k1 := 0.15 in
  let VRdc1 := (CRdc * k * rpow (100 * ρl * fck) (1 / 3) + k1 * σcp) * bw * d in
  let VRdc2 := (vmin + k1 * σcp) * bw * d in
  m = [("ρl", PFloat ρl); ("k", PFloat k); ("vmin", PFloat vmin);
       ("k1", PFloat k1); ("VRdc1", PFloat VRdc1); ("VRdc2", PFloat VRdc2);
       ("value", PFloat (Rmax VRdc1 VRdc2))]
  /\ (Asl / (bw * d) > 0.02 -> dict_getitem m "ρl" = Ok (PFloat 0.02))
  /\ (1 + sqrt (200.0 / d) > 2.0 -> dict_getitem m "k" = Ok (PFloat 2.0)).
Proof.
  intro H. cbv zeta. revert H.
  unfold VRdc; cbn. py_eval_num; intro H; try discriminate H.
  all: injection H as <-.
  all: repeat match goal with
       | H : context [rpow ?x 0.5] |- _ => rewrite (rpow_half x) in H by lra
       | |- context [rpow ?x 0.5] => rewrite (rpow_half x) by lra
       end.
  all: repeat match goal with
       | |- context [Rmin ?x ?y] =>
           first [ rewrite (Rmin_right x y) by lra | rewrite (Rmin_left x y) by lra ]
       end.
  all: repeat match goal with
       | |- context [Rmax ?x ?y] =>
           first [ rewrite (Rmax_right x y) by lra | rewrite (Rmax_left x y) by lra ]
       end.
  all: cbn; split; [reflexivity | split; intro Hc; solve [reflexivity | exfalso; lra]].
Qed.

Lemma C5_VRdc_N_mm_mapping_witness :
  exists m,
    VRdc 0 200 16 0 100 50 "N-mm" = Ok m
    /\ dict_getitem m "ρl" = Ok (PFloat 0.02)
    /\ dict_getitem m "k" = Ok (PFloat 2.0).
Proof.
  assert (Hs : sqrt (200.0 / 50) = 2).
  { replace (200.0 / 50) with (2 * 2) by lra. apply sqrt_square. lra. }
  assert (Hr : rpow (200.0 / 50) 0.5 = 2) by (rewrite rpow_half by lra; exact Hs).
  destruct (VRdc 0 200 16 0 100 50 "N-mm") as [m | e] eqn:E.
  - exists m. split; [reflexivity|].
    pose proof (C5_VRdc_N_mm_mapping 0 200 16 0 100 50 m E) as Hc.
    cbv zeta in Hc. destruct Hc as (_ & Hρ & Hk).
    split; [apply Hρ; lra | apply Hk; rewrite Hs; lra].
  - exfalso. revert E. unfold VRdc; cbn.
    py_eval_num; intro E; try discriminate E; lra.
Defined.

(** * Further properties of the code *)

(** ** [VRdmax] *)

(** [include_intermediates] changes only the shape of the result: the
    scalar call returns [res.value] of the detailed call, and both raise the
    same exception when one raises. *)
Theorem VRdmax_scalar_is_detailed_value bw d fck fyk fywk θ αcw γc units :
  VRdmax bw d fck fyk fywk θ αcw γc units false
  = fmap scalar_of (VRdmax bw d fck fyk fywk θ αcw γc units true).
Proof.
  unfold VRdmax.
  destruct (String.eqb units "N-mm-rad"), (String.eqb units "kN-m-rad"); cbn;
    py_eval; reflexivity.
Qed.

(** [γc = 0] is not guarded either: [fck_ / γc] raises [ZeroDivisionError]
    for a recognised units tag, whatever the other inputs. *)
Theorem VRdmax_gamma_c_zero_raises bw d fck fyk fywk θ αcw units ii :
  (units = "N-mm-rad" \/ units = "kN-m-rad") ->
  VRdmax bw d fck fyk fywk θ αcw 0 units ii = Err ZeroDivisionError.
Proof.
  intros [-> | ->]; unfold VRdmax; cbn; py_eval; solve [reflexivity | contradiction].
Qed.

Lemma VRdmax_gamma_c_zero_raises_witness :
  VRdmax 250 539 20 500 500 (PI / 4) 1 0 "N-mm-rad" false = Err ZeroDivisionError.
Proof.
  exact (VRdmax_gamma_c_zero_raises 250 539 20 500 500 (PI / 4) 1 "N-mm-rad" false
           (or_introl eq_refl)).
Defined.

(** [tan (π/2 − θ) = cot θ] on an acute angle. *)
Lemma tan_complement (θ : R) : 0 < θ < PI / 2 -> tan (PI / 2 - θ) = 1 / tan θ.
Proof.
  intros [H0 H1].
  assert (Hs : 0 < sin θ) by (apply sin_gt_0; lra).
  assert (Hc : 0 < cos θ) by (apply cos_gt_0; lra).
  unfold tan. rewrite sin_shift, cos_shift. field. split; lra.
Qed.

(** A non-negative number over a positive one is non-negative. *)
Lemma div_nonneg (a b : R) : 0 <= a -> 0 < b -> 0 <= a / b.
Proof.
  intros Ha Hb. unfold Rdiv. apply Rmult_le_pos; [exact Ha|].
  left. apply Rinv_0_lt_compat. exact Hb.
Qed.

(** [N / (tan θ + cot θ)] is largest at [tan θ = 1] for [N >= 0]. *)
Lemma quotient_tan_cot_le (N t : R) :
  0 <= N -> 0 < t -> N / (t + 1 / t) <= N / (1 + 1 / 1).
Proof.
  intros HN Ht.
  assert (H2 : 1 + 1 / 1 <= t + 1 / t).
  { assert (E : t + 1 / t - (1 + 1 / 1) = (t - 1) * (t - 1) / t) by (field; lra).
    assert (0 <= (t - 1) * (t - 1) / t).
    { apply div_nonneg; [pose proof (Rle_0_sqr (t - 1)) as Hq; unfold Rsqr in Hq; exact Hq | exact Ht]. }
    lra. }
  unfold Rdiv. apply Rmult_le_compat_l; [exact HN|].
  apply Rinv_le_contravar; lra.
Qed.

(** Non-negativity of a product whose factors are non-negative by [lra]. *)
Ltac nonneg_product :=
  repeat match goal with
  | |- 0 <= ?a * ?b => apply Rmult_le_pos
  | |- 0 <= ?a / ?b => apply div_nonneg
  end; lra.

(** The scalar result is symmetric in the strut angle: [θ] and [π/2 − θ]
    give the same value, since [tan θ + cot θ] is unchanged. *)
Theorem VRdmax_angle_symmetry bw d fck fyk fywk θ αcw γc units :
  0 < θ < PI / 2 ->
  VRdmax bw d fck fyk fywk (PI / 2 - θ) αcw γc units false
  = VRdmax bw d fck fyk fywk θ αcw γc units false.
Proof.
  intros Hθ.
  pose proof (tan_gt_0 θ (proj1 Hθ) (proj2 Hθ)) as Ht.
  assert (Hi : 1 / (1 / tan θ) = tan θ) by (field; lra).
  assert (Hp : 0 < 1 / tan θ) by (apply Rdiv_lt_0_compat; lra).
  unfold VRdmax. rewrite (tan_complement θ Hθ).
  destruct (String.eqb units "N-mm-rad"), (String.eqb units "kN-m-rad"); cbn;
    py_eval; try rewrite Hi in *;
    solve [ reflexivity | exfalso; lra
          | do 2 f_equal; rewrite (Rplus_comm (1 / tan θ) (tan θ)); reflexivity ].
Qed.

Lemma VRdmax_angle_symmetry_witness :
  VRdmax 250 539 20 500 500 (PI / 2 - PI / 6) 1 1.5 "N-mm-rad" false
  = VRdmax 250 539 20 500 500 (PI / 6) 1 1.5 "N-mm-rad" false.
Proof.
  apply VRdmax_angle_symmetry. pose proof PI_RGT_0. split; lra.
Defined.

(** For an acute strut angle and non-negative data ([fck <= 250] in the
    units of the call's internal mm/N space), the resistance is largest at
    [θ = π/4]. *)
Theorem VRdmax_max_at_PI4 bw d fck fyk fywk θ αcw γc units :
  (units = "N-mm-rad" \/ units = "kN-m-rad") ->
  0 <= αcw -> 0 <= bw -> 0 <= d -> 0 < γc ->
  0 <= fck -> fck * (if String.eqb units "kN-m-rad" then 0.001 else 1) <= 250 ->
  0 < θ < PI / 2 ->
  exists v v4,
    VRdmax bw d fck fyk fywk θ αcw γc units false = Ok (Scalar v)
    /\ VRdmax bw d fck fyk fywk (PI / 4) αcw γc units false = Ok (Scalar v4)
    /\ v <= v4.
Proof.
  intros Hu Ha Hb Hd Hg Hf Hf250 Hθ.
  pose proof (tan_gt_0 θ (proj1 Hθ) (proj2 Hθ)) as Ht.
  pose proof (tan_plus_cot_pos θ Hθ) as HS.
  destruct Hu as [-> | ->]; cbn in Hf250; unfold VRdmax; cbn; rewrite tan_PI4;
    py_eval; try (exfalso; lra);
    (do 2 eexists; split; [reflexivity | split; [reflexivity|]]).
  all: try (apply Rmult_le_compat_r; [lra|]).
  all: apply quotient_tan_cot_le; [nonneg_product | exact Ht].
Qed.

Lemma VRdmax_max_at_PI4_witness :
  exists v v4,
    VRdmax 250 539 20 500 500 (PI / 6) 1 1.5 "N-mm-rad" false = Ok (Scalar v)
    /\ VRdmax 250 539 20 500 500 (PI / 4) 1 1.5 "N-mm-rad" false = Ok (Scalar v4)
    /\ v <= v4.
Proof.
  pose proof PI_RGT_0.
  apply (VRdmax_max_at_PI4 250 539 20 500 500 (PI / 6) 1 1.5 "N-mm-rad");
    solve [ left; reflexivity | cbn; lra | split; lra ].
Defined.

(** ** [VRdc] *)

(** Real powers are non-negative. *)
Lemma rpow_nonneg (x y : R) : 0 <= rpow x y.
Proof.
  unfold rpow. destruct (Req_dec_T x 0); [lra|].
  unfold Rpower. left. apply exp_pos.
Qed.

(** Non-negativity of sums, products, quotients and powers of non-negative
    terms. *)
Ltac nonneg_expr :=
  repeat match goal with
  | |- 0 <= ?a * ?b => apply Rmult_le_pos
  | |- 0 <= ?a / ?b => apply div_nonneg
  | |- 0 <= ?a + ?b => apply Rplus_le_le_0_compat
  | |- 0 <= rpow ?a ?b => apply rpow_nonneg
  | |- 0 < ?a * ?b => apply Rmult_lt_0_compat
  | |- 0 < ?a / ?b => apply Rdiv_lt_0_compat
  end; lra.

(** Split a [VRdc] goal on the units tag: "N-mm", "kN-m", or any other. *)
Ltac VRdc_units_cases units :=
  unfold VRdc;
  destruct (String.eqb_spec units "N-mm") as [-> | Hun];
  [ | destruct (String.eqb_spec units "kN-m") as [-> | Huk] ];
  cbn.

(** Whatever the units tag, a returned mapping has exactly the keys ρl, k,
    vmin, k1, VRdc1, VRdc2, value in this order, all floats, with
    [ρl <= 0.02], [1 <= k <= 2], [vmin >= 0], [k1 = 0.15], and
    [value = max(VRdc1, VRdc2)], times 0.001 for "kN-m". *)
Theorem VRdc_result_invariants CRdc Asl fck σcp bw d units m :
  VRdc CRdc Asl fck σcp bw d units = Ok m ->
  exists ρl k vmin VRdc1 VRdc2 value,
    m = [("ρl", PFloat ρl); ("k", PFloat k); ("vmin", PFloat vmin);
         ("k1", PFloat 0.15); ("VRdc1", PFloat VRdc1); ("VRdc2", PFloat VRdc2);
         ("value", PFloat value)]
    /\ ρl <= 0.02 /\ 1 <= k <= 2.0 /\ 0 <= vmin
    /\ value = (if String.eqb units "kN-m" then Rmax VRdc1 VRdc2 * 0.001
                else Rmax VRdc1 VRdc2).
Proof.
  VRdc_units_cases units; py_eval_num; intro H; try discriminate H; injection H as <-.
  all: do 6 eexists; split; [reflexivity|].
  all: repeat match goal with
       | |- context [rpow ?x ?y] =>
           lazymatch goal with
           | _ : 0 <= rpow x y |- _ => fail
           | _ => pose proof (rpow_nonneg x y)
           end
       end.
  all: split; [lra|]; split; [lra|]; split; [nonneg_expr|].
  all: first [ rewrite Rmax_right by lra | rewrite Rmax_left by lra ]; reflexivity.
Qed.

Lemma VRdc_result_invariants_witness :
  exists m ρl k vmin VRdc1 VRdc2 value,
    VRdc 0 200 16 0 100 50 "N-mm" = Ok m
    /\ m = [("ρl", PFloat ρl); ("k", PFloat k); ("vmin", PFloat vmin);
            ("k1", PFloat 0.15); ("VRdc1", PFloat VRdc1); ("VRdc2", PFloat VRdc2);
            ("value", PFloat value)]
    /\ ρl <= 0.02 /\ 1 <= k <= 2.0 /\ 0 <= vmin
    /\ value = Rmax VRdc1 VRdc2.
Proof.
  assert (Hr : rpow (200.0 / 50) 0.5 = 2).
  { rewrite rpow_half by lra. replace (200.0 / 50) with (2 * 2) by lra.
    apply sqrt_square. lra. }
  destruct (VRdc 0 200 16 0 100 50 "N-mm") as [m | e] eqn:E.
  - destruct (VRdc_result_invariants 0 200 16 0 100 50 "N-mm" m E)
      as (ρl & k & vmin & V1 & V2 & v & Hm & H1 & H2 & H3 & H4).
    exists m, ρl, k, vmin, V1, V2, v. cbn in H4. auto 10.
  - exfalso. revert E. unfold VRdc; cbn.
    py_eval_num; intro E; try discriminate E; lra.
Defined.

(** Close a branch of a [VRdc] evaluation that a sign hypothesis rules out. *)
Ltac VRdc_sign_contradiction :=
  exfalso;
  match goal with
  | H : ?x = 0 |- _ => assert (0 < x) by nonneg_expr; lra
  | H : ?x < 0 |- _ => assert (0 <= x) by nonneg_expr; lra
  end.

(** On positive geometry and non-negative [Asl], [fck] the call returns,
    whatever the units tag; the reported value is then non-negative
    whenever [σcp >= 0]. *)
Theorem VRdc_defined_nonneg CRdc Asl fck σcp bw d units :
  0 < bw -> 0 < d -> 0 <= Asl -> 0 <= fck ->
  exists m v,
    VRdc CRdc Asl fck σcp bw d units = Ok m
    /\ dict_getitem m "value" = Ok (PFloat v)
    /\ (0 <= σcp -> 0 <= v).
Proof.
  intros Hb Hd HA Hf.
  VRdc_units_cases units; py_eval_num; try VRdc_sign_contradiction.
  all: do 2 eexists; split; [reflexivity | split; [reflexivity | intro Hs]].
  all: try match goal with |- 0 <= ?a * 0.001 => apply Rmult_le_pos; [| lra] end.
  all: first
       [ nonneg_expr
       | match goal with
         | H : ~ ?a < ?b |- 0 <= ?a => assert (0 <= b) by nonneg_expr; lra
         end ].
Qed.

Lemma VRdc_defined_nonneg_witness :
  exists m v,
    VRdc 0.12 308 20 0.66667 250 539 "N-mm" = Ok m
    /\ dict_getitem m "value" = Ok (PFloat v)
    /\ (0 <= 0.66667 -> 0 <= v).
Proof. apply VRdc_defined_nonneg; lra. Defined.

(** A zero width or depth raises [ZeroDivisionError] in [Asl / (bw * d)],
    whatever the units tag and the other inputs. *)
Theorem VRdc_zero_section_raises CRdc Asl fck σcp bw d units :
  bw = 0 \/ d = 0 ->
  VRdc CRdc Asl fck σcp bw d units = Err ZeroDivisionError.
Proof.
  intros [-> | ->]; VRdc_units_cases units; py_eval_num;
    solve [ reflexivity
          | exfalso; match goal with H : ?x <> 0 |- _ => apply H; ring end ].
Qed.

Lemma VRdc_zero_section_raises_witness :
  VRdc 0.12 308 20 0.66667 250 0 "kN-m" = Err ZeroDivisionError.
Proof. apply VRdc_zero_section_raises. right. reflexivity. Defined.

(** A positive number over a negative one is negative. *)
Lemma div_pos_neg (a b : R) : 0 < a -> b < 0 -> a / b < 0.
Proof.
  intros Ha Hb. unfold Rdiv.
  pose proof (Rinv_lt_0_compat b Hb). nra.
Qed.

(** A negative depth (with a non-zero width) makes [(200.0 / d) ** 0.5] a
    complex number, and [min] with it raises [TypeError], whatever the
    units tag. *)
Theorem VRdc_negative_depth_TypeError CRdc Asl fck σcp bw d units :
  bw <> 0 -> d < 0 ->
  VRdc CRdc Asl fck σcp bw d units = Err TypeError.
Proof.
  intros Hb Hd.
  VRdc_units_cases units; py_eval_num;
    solve
      [ reflexivity
      | exfalso; lra
      | exfalso; match goal with
        | H : ?x = 0 |- _ =>
            revert H; repeat apply Rmult_integral_contrapositive_currified; lra
        end
      | exfalso; match goal with
        | H : ~ (?a / ?b < 0) |- _ => apply H; apply div_pos_neg; lra
        end ].
Qed.

Lemma VRdc_negative_depth_TypeError_witness :
  VRdc 0.12 308 20 0.66667 250 (-539) "N-mm" = Err TypeError.
Proof. apply VRdc_negative_depth_TypeError; lra. Defined.

(** Sign of [100 · (A/p) · F] when [A · F < 0] and [p > 0]. *)
Lemma ratio_product_neg (A F p : R) : A * F < 0 -> 0 < p -> 100 * (A / p) * F < 0.
Proof.
  intros H Hp.
  replace (100 * (A / p) * F) with (100 * (A * F) * / p) by (field; lra).
  pose proof (Rinv_0_lt_compat p Hp). nra.
Qed.

(** The clamped ratio [0.02] keeps the sign of [F] when [A / p > 0.02]. *)
Lemma clamped_ratio_product_neg (A F p : R) :
  A * F < 0 -> 0 < p -> 0.02 < A / p -> 100 * 0.02 * F < 0.
Proof.
  intros H Hp Hq.
  assert (HA : 0 < A).
  { replace A with (A / p * p) by (field; lra). nra. }
  nra.
Qed.

(** With positive geometry, a negative reinforcement ratio against a
    positive concrete strength (or the reverse) makes the base of
    [math.pow(100·ρl·fck, 1/3)] negative, which raises [ValueError], for
    every units tag. *)
Theorem VRdc_negative_pow_base_ValueError CRdc Asl fck σcp bw d units :
  0 < bw -> 0 < d -> Asl * fck < 0 ->
  VRdc CRdc Asl fck σcp bw d units = Err ValueError.
Proof.
  intros Hb Hd HAf.
  VRdc_units_cases units; py_eval_num;
    solve
      [ reflexivity
      | VRdc_sign_contradiction
      | exfalso; match goal with
        | H : ~ (100 * (?A / ?p) * ?F < 0) |- _ =>
            apply H; apply ratio_product_neg; [lra | nonneg_expr]
        | H1 : 0.02 < ?A / ?p, H : ~ (100 * 0.02 * ?F < 0) |- _ =>
            apply H; apply (clamped_ratio_product_neg A F p); [lra | nonneg_expr | exact H1]
        end ].
Qed.

Lemma VRdc_negative_pow_base_ValueError_witness :
  VRdc 0.12 (-308) 20 0.66667 250 539 "N-mm" = Err ValueError.
Proof. apply VRdc_negative_pow_base_ValueError; lra. Defined.

(** Without reinforcement ([Asl = 0]) a negative [fck] passes [math.pow]
    (its base is 0) but makes [fck ** 0.5] complex, so [max(VRdc1, VRdc2)]
    raises [TypeError], for every units tag. *)
Theorem VRdc_no_steel_negative_fck_TypeError CRdc fck σcp bw d units :
  0 < bw -> 0 < d -> fck < 0 ->
  VRdc CRdc 0 fck σcp bw d units = Err TypeError.
Proof.
  intros Hb Hd Hf.
  VRdc_units_cases units; py_eval_num;
    solve [ reflexivity | VRdc_sign_contradiction | exfalso; lra
          | exfalso; unfold Rdiv in *; rewrite ?Rmult_0_l in *; lra ].
Qed.

Lemma VRdc_no_steel_negative_fck_TypeError_witness :
  VRdc 0.12 0 (-20) 0.66667 250 539 "N-mm" = Err TypeError.
Proof. apply VRdc_no_steel_negative_fck_TypeError; lra. Defined.

(** ** [VRdmaxResult.to_latex] *)

Lemma string_append_assoc (a b c : string) :
  ((a ++ b) ++ c)%string = (a ++ (b ++ c))%string.
Proof. induction a as [|x a IH]; cbn; [reflexivity|now rewrite IH]. Qed.

Lemma string_suffix_step (a b t : string) :
  (exists pre, b = (pre ++ t)%string) -> exists pre, (a ++ b)%string = (pre ++ t)%string.
Proof. intros [pre ->]. exists (a ++ pre)%string. now rewrite string_append_assoc. Qed.

Lemma string_append_nonempty_eqb (a : Ascii.ascii) (s t : string) :
  String.eqb (String a s ++ t) "" = false.
Proof. reflexivity. Qed.

Lemma VRdmax_kN_detailed_fields bw d fck fyk fywk θ αcw γc r :
  VRdmax bw d fck fyk fywk θ αcw γc "kN-m-rad" true = Ok (Detailed r) ->
  VRdmaxResult.units r = "kN-m-rad" /\ VRdmaxResult.z r = 0.9 * (d * 1000)
  /\ VRdmaxResult.fcd r = fck * 0.001 / γc.
Proof.
  unfold VRdmax; cbn; py_eval; intro H; try discriminate H.
  all: injection H as <-; cbn; auto.
Qed.

(** Rendering the steps of a "kN-m-rad" result: the lever arm is printed
    as [0.9·(d·1000)], a length in mm, under the label "m", and [fcd] as
    [(fck·0.001)/γc] under "N/mm^2"; the final value is labelled "kN". *)
Theorem to_latex_kN_steps_internal_z fmt dec bw d fck fyk fywk θ αcw γc r :
  VRdmax bw d fck fyk fywk θ αcw γc "kN-m-rad" true = Ok (Detailed r) ->
  (exists rest,
    to_latex fmt r false true dec
    = ("$$\begin{array}{l l}z = " ++ fmt dec (0.9 * (d * 1000))
       ++ "~\mathrm{m} & f_{cd} = " ++ fmt dec (fck * 0.001 / γc)
       ++ "~\mathrm{N/mm^2} \\ " ++ rest)%string)
  /\ exists pre,
       to_latex fmt r false true dec
       = (pre ++ fmt dec (VRdmaxResult.value r) ++ "~\text{kN}\end{align}")%string.
Proof.
  intro H.
  destruct (VRdmax_kN_detailed_fields _ _ _ _ _ _ _ _ _ H) as (Hu & Hz & Hf).
  unfold to_latex. rewrite Hu, Hz, Hf.
  change (String.eqb "kN-m-rad" "N-mm-rad") with false. cbv iota beta zeta.
  cbn [List.filter]. rewrite !string_append_nonempty_eqb.
  cbn [negb String.eqb String.concat List.filter].
  split.
  - eexists. rewrite !string_append_assoc. cbn. reflexivity.
  - repeat first [ exists ""%string; reflexivity | apply string_suffix_step ].
Qed.

Lemma to_latex_kN_steps_internal_z_witness :
  exists r,
    VRdmax 0.3 0.5 30 500 500 (PI / 4) 1 1.5 "kN-m-rad" true = Ok (Detailed r)
    /\ (exists rest,
          to_latex (fun _ _ => "q") r false true 3
          = ("$$\begin{array}{l l}z = " ++ "q"
             ++ "~\mathrm{m} & f_{cd} = " ++ "q"
             ++ "~\mathrm{N/mm^2} \\ " ++ rest)%string)
    /\ exists pre,
         to_latex (fun _ _ => "q") r false true 3
         = (pre ++ "q" ++ "~\text{kN}\end{align}")%string.
Proof.
  assert (Hv : exists r,
    VRdmax 0.3 0.5 30 500 500 (PI / 4) 1 1.5 "kN-m-rad" true = Ok (Detailed r)).
  { unfold VRdmax; cbn; py_eval; rewrite ?tan_PI4 in *; try lra; eexists; reflexivity. }
  destruct Hv as [r Hr]. exists r. split; [exact Hr|].
  exact (to_latex_kN_steps_internal_z (fun _ _ => "q") 3 _ _ _ _ _ _ _ _ r Hr).
Defined.
